(** * Shallow embedding of the Sequelize model layer of the Ecommerce backend

    Each model method is embedded on its own, as a function over the rows it
    reads and writes.  Amounts of money are integers (cents): the DECIMAL(10,2)
    columns hold exact decimals and [parseFloat] of such a column is modelled
    as the identity on cents.

    Sequelize behaviour the embedding relies on:
    - [Model.create] is [build(values).save()]; [save] first validates the
      attributes (the [allowNull: false] checks and the [validate] blocks),
      then runs the [before<Create|Update>] hooks, then runs the SQL
      statement, then the [after...] hooks;
    - saving an existing row validates only the changed attributes; when
      no attribute changed, [save] issues no UPDATE and runs no after-hook;
    - hooks are looked up under their exact names ([afterUpdate]); entries
      such as [AfterUpdate] or [BeforeUpdate] are stored but never run;
    - an instance has the methods assigned to [Model.prototype] besides
      Sequelize's own ([save], [update], [get], ...); any other name is
      [undefined] and calling it throws a [TypeError]. *)

From Stdlib Require Import ZArith List String Bool Lia.
Import ListNotations.
Open Scope string_scope.
Open Scope Z_scope.

(** ** Exceptions and results *)

(** The messages of the [throw new Error(...)] statements used below. *)
Inductive mensaje :=
| StockInsuficiente      (* "No hay suficiente stock ..." / "Stock insuficiente ..." *)
| CategoriaNoExiste      (* "La categoría asociada a esta subcategoría no existe" *)
| CategoriaDesactivada   (* "No se puede crear una subcategoría para una categoría desactivada" *)
| EstadoNoValido         (* "Estado no válido" *)
| NoSePuedeCancelar.     (* "No se puede cancelar el pedido" *)

Inductive js_error :=
| TypeError (que : string)          (* calling a value that is not a function *)
| ReferenceError (que : string)     (* reading an unbound identifier *)
| ValidationError                   (* SequelizeValidationError *)
| UniqueConstraintError             (* SequelizeUniqueConstraintError *)
| Error (m : mensaje)               (* throw new Error(m) *)
| ModuleNotFound (ruta : string).   (* require(ruta): an Error with code MODULE_NOT_FOUND *)

Inductive res (A : Type) :=
| Ok (a : A)
| Throw (e : js_error).
Arguments Ok {A} a.
Arguments Throw {A} e.

(** ** Sequelize's string validators

    A JS string is a sequence of UTF-16 code units; a [string] here holds
    its UTF-8 encoding, and [utf8] decodes it into code points (a byte that
    does not start a well-formed sequence decodes to U+FFFD).  Sequelize
    applies its validators to [String(value)]. *)

Fixpoint octetos (s : string) : list Z :=
  match s with
  | EmptyString => []
  | String a r => Z.of_N (Ascii.N_of_ascii a) :: octetos r
  end.

Definition continuacion (b : Z) : bool := (128 <=? b) && (b <? 192).

Fixpoint utf8 (bs : list Z) : list Z :=
  match bs with
  | [] => []
  | b0 :: r0 =>
      if b0 <? 128 then b0 :: utf8 r0
      else match r0 with
      | [] => 65533 :: utf8 r0
      | b1 :: r1 =>
          if (194 <=? b0) && (b0 <? 224) && continuacion b1
          then ((b0 - 192) * 64 + (b1 - 128)) :: utf8 r1
          else match r1 with
          | [] => 65533 :: utf8 r0
          | b2 :: r2 =>
              if (224 <=? b0) && (b0 <? 240) && continuacion b1 && continuacion b2
              then (((b0 - 224) * 64 + (b1 - 128)) * 64 + (b2 - 128)) :: utf8 r2
              else match r2 with
              | [] => 65533 :: utf8 r0
              | b3 :: r3 =>
                  if (240 <=? b0) && (b0 <? 245) && continuacion b1 && continuacion b2 &&
                     continuacion b3
                  then ((((b0 - 240) * 64 + (b1 - 128)) * 64 + (b2 - 128)) * 64 + (b3 - 128))
                       :: utf8 r3
                  else 65533 :: utf8 r0
              end
          end
      end
  end.

(** The class [\s] of JS regular expressions: WhiteSpace (tab, vertical
    tab, form feed, space, U+00A0, U+FEFF and the other Zs characters) and
    LineTerminator (LF, CR, U+2028, U+2029). *)
Definition espacio (c : Z) : bool :=
  existsb (Z.eqb c) [9; 10; 11; 12; 13; 32; 160; 5760; 8232; 8233; 8239; 8287; 12288; 65279]
  || ((8192 <=? c) && (c <=? 8202)).

(** Sequelize's [notEmpty]: [!str.match(/^[\s\t\r\n]*$/)], false for a
    string made of white space only. *)
Definition notEmpty (str : string) : bool :=
  negb (forallb espacio (utf8 (octetos str))).

(** validator's [isLength(str, min, max)], which Sequelize's [len] calls:
    [str.length] less the surrogate pairs and less the presentation
    selectors U+FE0E and U+FE0F (validator 13.9 and later), that is, the
    number of code points other than those two. *)
Definition longitud (str : string) : Z :=
  Z.of_nat (List.length (filter (fun c => negb ((c =? 65038) || (c =? 65039)))
                                (utf8 (octetos str)))).

Definition isLength (str : string) (min max : Z) : bool :=
  (min <=? longitud str) && (longitud str <=? max).

(** ** Product model (producto, src/unnamed/part_001) *)

Module Producto.

Record t := mk {
  id : Z;
  nombre : string;
  precio : Z;
  stock : Z;
  categoriaId : Z;
  subcategoriaId : Z;
  activo : bool
}.

Definition set_stock (p : t) (s : Z) : t :=
  mk p.(id) p.(nombre) p.(precio) s p.(categoriaId) p.(subcategoriaId) p.(activo).

Definition set_activo (p : t) (b : bool) : t :=
  mk p.(id) p.(nombre) p.(precio) p.(stock) p.(categoriaId) p.(subcategoriaId) b.

(** [producto.prototype.HayStock = function (cantidad = 3) {
       return this.stock >= cantidad; }]; an omitted argument is [None]. *)
Definition HayStock (this : t) (cantidad : option Z) : bool :=
  let cantidad := match cantidad with Some c => c | None => 3 end in
  cantidad <=? this.(stock).

(** The [validate] block of [stock]: [isInt] (which an integer passes) and
    [min: 0]. *)
Definition stock_valido (p : t) : bool := 0 <=? p.(stock).

(** The table [productos]; rows are addressed by their primary key. *)
Definition tabla := list t.

Fixpoint findByPk (db : tabla) (k : Z) : option t :=
  match db with
  | [] => None
  | p :: rest => if p.(id) =? k then Some p else findByPk rest k
  end.

Definition reemplazar (p : t) (db : tabla) : tabla :=
  map (fun q => if q.(id) =? p.(id) then p else q) db.

(** [this.save()] on an existing row whose only changed attribute is
    [stock] (its one caller, [reducirStock], changes nothing else): only
    the validators of [stock] run, then the UPDATE. *)
Definition save (this : t) (db : tabla) : res tabla :=
  if stock_valido this then Ok (reemplazar this db) else Throw ValidationError.

(** [producto.prototype.reducirStock]:
    {v
    if (this.HayStock(cantidad)) { throw new Error(...) }
    this.stock -= cantidad;
    await this.save();
    v}
    The result carries the outcome, the instance [this] afterwards and the
    table afterwards. *)
Definition reducirStock (this : t) (cantidad : Z) (db : tabla)
  : res unit * t * tabla :=
  if HayStock this (Some cantidad) then (Throw (Error StockInsuficiente), this, db)
  else
    let this' := set_stock this (this.(stock) - cantidad) in
    match save this' db with
    | Ok db' => (Ok tt, this', db')
    | Throw e => (Throw e, this', db)
    end.

(** The methods assigned to [producto.prototype] in part_001. *)
Inductive metodo := M_obtenerUrlImagen | M_HayStock | M_reducirStock.

Definition prototipo (nombre : string) : option metodo :=
  if string_dec nombre "obtenerUrlImagen" then Some M_obtenerUrlImagen
  else if string_dec nombre "HayStock" then Some M_HayStock
  else if string_dec nombre "reducirStock" then Some M_reducirStock
  else None.

(** The JS values these methods return, as far as the callers use them. *)
Inductive valor :=
| VBool (b : bool)
| VUndefined
| VOtro.  (* a string or null: the result of obtenerUrlImagen, unused here *)

Definition truthy (v : valor) : bool :=
  match v with VBool b => b | _ => false end.

(** [inst.nombre(args...)] on a product instance [inst] (or on [null] when
    [findByPk] found nothing). *)
Definition invocar (inst : option t) (nombre : string) (args : list Z) (db : tabla)
  : res valor * tabla :=
  match inst with
  | None => (Throw (TypeError nombre), db)
  | Some p =>
      match prototipo nombre with
      | None => (Throw (TypeError nombre), db)
      | Some M_HayStock => (Ok (VBool (HayStock p (hd_error args))), db)
      | Some M_obtenerUrlImagen => (Ok VOtro, db)
      | Some M_reducirStock =>
          let '(r, _, db') := reducirStock p (hd 0 args) db in
          match r with Ok _ => (Ok VUndefined, db') | Throw e => (Throw e, db') end
      end
  end.

(** [producto.prototype.obtenerUrlImagen]:
    {v
    if (this.imagen) { return null; }
    const baseUrl = process.env.FRONTEND_URL || "http://localhost:5000";
    return `${baseUrl}/uploads/${this.imagen}`;
    v}
    [imagen] is the column value ([None] for [null]); [FRONTEND_URL] the
    environment variable ([None] when unset).  A string is truthy when it
    is not empty, and [null] is interpolated as "null". *)
Definition obtenerUrlImagen (imagen : option string) (FRONTEND_URL : option string)
  : option string :=
  let imagen_truthy := match imagen with Some s => negb (String.eqb s "") | None => false end in
  if imagen_truthy then None
  else
    let baseUrl := match FRONTEND_URL with
                   | Some u => if String.eqb u "" then "http://localhost:5000" else u
                   | None => "http://localhost:5000"
                   end in
    Some (baseUrl ++ "/uploads/" ++ match imagen with Some s => s | None => "null" end).

End Producto.

(** The global functions the models call; [parseFloat] of a DECIMAL column
    is the identity on cents.  Any other identifier is unbound. *)
Definition global_fn (nombre : string) : option (Z -> Z) :=
  if string_dec nombre "parseFloat" then Some (fun x => x) else None.

(** ** Cart model (carrito, src/backend/models/pedido.js lines 1-323) *)

Module Carrito.

Record t := mk {
  id : Z;
  usuarioId : Z;
  productoId : Z;
  cantidad : Z;
  precioUnitario : Z
}.

Definition set_cantidad (c : t) (n : Z) : t :=
  mk c.(id) c.(usuarioId) c.(productoId) n c.(precioUnitario).

Definition tabla := list t.

Definition reemplazar (c : t) (db : tabla) : tabla :=
  map (fun q => if q.(id) =? c.(id) then c else q) db.

(** [carrito.prototype.calcularSubtotal = function () {
       return parseFloa(this.precioUnitario) * this.cantidad; }] *)
Definition calcularSubtotal (this : t) : res Z :=
  match global_fn "parseFloa" with
  | None => Throw (ReferenceError "parseFloa")
  | Some f => Ok (f this.(precioUnitario) * this.(cantidad))
  end.

(** The loop [for (const item of items) total += item.calcularSubtotal();]. *)
Fixpoint acumular (items : list t) (total : Z) : res Z :=
  match items with
  | [] => Ok total
  | item :: rest =>
      match calcularSubtotal item with
      | Throw e => Throw e
      | Ok s => acumular rest (total + s)
      end
  end.

(** [carrito.calcularTotalCarrito(usuarioId)]: [findAll({where: {usuarioId}})],
    then the loop starting from [total = 0]. *)
Definition calcularTotalCarrito (usuarioId : Z) (db : tabla) : res Z :=
  acumular (filter (fun c => c.(Carrito.usuarioId) =? usuarioId) db) 0.

(** [carrito.prototype.actualizarCantidad(nuevaCantidad)]:
    {v
    const prducto = await producto.findByPk(this.productoId);
    if (!prducto.hayStock(nuevaCantidad)) { throw new Error(...) }
    this.cantidad = nuevaCantidad;
    return await this.save();
    v}
    [save] validates the changed attribute [cantidad] ([min: 1]); the
    [BeforeUpdate] entry of the hooks is not a Sequelize hook name. *)
Definition actualizarCantidad (this : t) (nuevaCantidad : Z)
    (productos : Producto.tabla) (db : tabla) : res t * tabla :=
  let prducto := Producto.findByPk productos this.(productoId) in
  match Producto.invocar prducto "hayStock" [nuevaCantidad] productos with
  | (Throw e, _) => (Throw e, db)
  | (Ok v, _) =>
      if negb (Producto.truthy v) then (Throw (Error StockInsuficiente), db)
      else
        let this' := set_cantidad this nuevaCantidad in
        if 1 <=? nuevaCantidad then (Ok this', reemplazar this' db)
        else (Throw ValidationError, db)
  end.

(** [carrito.vaciarCarrito(usuarioId)]: [carrito.destroy({ where: { usuarioId } })]
    deletes the user's rows and resolves to the number of rows deleted. *)
Definition vaciarCarrito (usuarioId : Z) (db : tabla) : Z * tabla :=
  (Z.of_nat (List.length (filter (fun c => c.(Carrito.usuarioId) =? usuarioId) db)),
   filter (fun c => negb (c.(Carrito.usuarioId) =? usuarioId)) db).

(** The outcomes of [carrito.create]: the hook throws [Error]s whose
    messages are not among [mensaje]. *)
Inductive fallo :=
| JsError (e : js_error)
| ProductoNoExiste      (* "El producto asociado a este item de carrito no existe" *)
| ProductoDesactivado.  (* "No se puede crear un item de carrito para un producto desactivado" *)

Inductive resultado (A : Type) :=
| Listo (a : A)
| Falla (f : fallo).
Arguments Listo {A} a.
Arguments Falla {A} f.

(** The values given to [carrito.create(values)]; [None] is a column left
    out ([undefined]) or [null].  The cart model is the [define] of
    pedido.js: besides the cart's own columns it has the order columns
    [total], [estado], [direccionEnvio], [telefono] and [notas]. *)
Record valores := mkValores {
  v_usuarioId : option Z;
  v_total : option Z;
  v_estado : option string;
  v_direccionEnvio : option string;
  v_telefono : option string;
  v_productoId : option Z;
  v_cantidad : option Z;
  v_precioUnitario : option Z
}.

(** [defaultValue: "pendiente"] and [defaultValue: 1]. *)
Definition estado_de (v : valores) : string :=
  match v.(v_estado) with Some e => e | None => "pendiente" end.

Definition cantidad_de (v : valores) : Z :=
  match v.(v_cantidad) with Some n => n | None => 1 end.

Definition estados : list string :=
  ["pendiente"; "pagado"; "enviado"; "entregado"; "cancelado"].

(** The validation of [save] on a new row: [allowNull: false] on every
    column but [notas] ([estado] and [cantidad] take their defaults);
    [notEmpty] on [usuarioId], [productoId] (numbers, whose string form is
    never blank), [direccionEnvio] and [telefono]; [min: 0] on [total] and
    [precioUnitario] (whose [isDecimal] holds of any amount in cents);
    [isInt] and [min: 1] on [cantidad]; [isIn] on [estado]. *)
Definition valido (v : valores) : bool :=
  match v.(v_usuarioId), v.(v_total), v.(v_direccionEnvio), v.(v_telefono),
        v.(v_productoId), v.(v_precioUnitario) with
  | Some _, Some total, Some dir, Some tel, Some _, Some precio =>
      (0 <=? total) && notEmpty dir && notEmpty tel && (1 <=? cantidad_de v) &&
      (0 <=? precio) && existsb (String.eqb (estado_de v)) estados
  | _, _, _, _, _, _ => false
  end.

(** The [beforeCreate] hook of [carrito]:
    {v
    const prducto = await producto.findByPk(itemcarrito.productoId);
    if (!prducto) { throw new Error("El producto asociado ... no existe"); }
    if (!prducto.activo) { throw new Error("No se puede crear ... desactivado"); }
    if (!producto.hayStock(itemcarrito.cantidad)) { throw new Error(...); }
    itemcarrito.precioUnitario = prducto.precio;
    v}
    The third test calls [hayStock] on [producto], the model returned by
    [require("./producto")], not on the instance [prducto]: the model has
    no such property, so the call throws a [TypeError] and the last
    statement, which would give the price to store, is never reached. *)
Definition beforeCreate (itemcarrito : valores) (productos : Producto.tabla) : resultado Z :=
  match match itemcarrito.(v_productoId) with
        | Some k => Producto.findByPk productos k
        | None => None
        end with
  | None => Falla ProductoNoExiste
  | Some prducto =>
      if negb prducto.(Producto.activo) then Falla ProductoDesactivado
      else Falla (JsError (TypeError "hayStock"))
  end.

Definition siguiente_id (db : tabla) : Z :=
  1 + fold_right (fun c m => Z.max c.(Carrito.id) m) 0 db.

(** [carrito.create(values)]: validation, then [beforeCreate], then the
    INSERT under the unique index [usuario_producto_unique] on
    ([usuarioId], [productoId]). *)
Definition create (v : valores) (productos : Producto.tabla) (db : tabla) : resultado tabla :=
  if negb (valido v) then Falla (JsError ValidationError)
  else match beforeCreate v productos with
       | Falla f => Falla f
       | Listo precio =>
           match v.(v_usuarioId), v.(v_productoId) with
           | Some u, Some k =>
               if existsb (fun c => (c.(Carrito.usuarioId) =? u) && (c.(Carrito.productoId) =? k)) db
               then Falla (JsError UniqueConstraintError)
               else Listo (db ++ [mk (siguiente_id db) u k (cantidad_de v) precio])%list
           | _, _ => Falla (JsError ValidationError)  (* not reached: [valido] requires both *)
           end
       end.

End Carrito.

(** ** Category and subcategory models (src/unnamed/part_000) *)

Module Categoria.

Record t := mk {
  id : Z;
  nombre : string;
  activo : bool
}.

Definition set_activo (c : t) (b : bool) : t := mk c.(id) c.(nombre) b.

End Categoria.

Module Subcategoria.

Record t := mk {
  id : Z;
  nombre : string;
  categoriaId : Z;
  activo : bool
}.

Definition set_activo (s : t) (b : bool) : t :=
  mk s.(id) s.(nombre) s.(categoriaId) b.

(** The [validate] block of [nombre]: [notEmpty] and [len: [2, 100]]
    ([nombre] and [categoriaId] are given, so [allowNull: false] holds). *)
Definition valido (s : t) : bool :=
  notEmpty s.(nombre) && isLength s.(nombre) 2 100.

End Subcategoria.

(** [Categoria.prototype.getNumeroSubcategoriasActivas] (assigned twice in
    part_000 with the same body):
    [return await Subcategoria.count({ where: { categoriaId: this.id } });] *)
Definition getNumeroSubcategoriasActivas (this : Categoria.t) (subs : list Subcategoria.t) : Z :=
  Z.of_nat (List.length (filter (fun s => s.(Subcategoria.categoriaId) =? this.(Categoria.id)) subs)).

(** ** Order line model (detallePedido, src/backend/models/detallePedido.js) *)

Module DetallePedido.

Record t := mk {
  id : Z;
  pedidoId : Z;
  productoId : Z;
  cantidad : Z;
  precioUnitario : Z;
  subtotal : option Z   (* [null] until the beforeCreate hook sets it *)
}.

(** The schema checks of [save]: [cantidad] has [min: 1], [precioUnitario]
    and [subtotal] have [min: 0], and [subtotal] has [allowNull: false]. *)
Definition valido (d : t) : bool :=
  (1 <=? d.(cantidad)) && (0 <=? d.(precioUnitario)) &&
  match d.(subtotal) with Some s => 0 <=? s | None => false end.

(** [beforeCreate: (detalle) => { detalle.subtotal =
       parseFloat(detalle.precioUnitario) * detalle.cantidad; }] *)
Definition beforeCreate (d : t) : t :=
  mk d.(id) d.(pedidoId) d.(productoId) d.(cantidad) d.(precioUnitario)
     (Some (d.(precioUnitario) * d.(cantidad))).

(** [detallePedido.prototype.calcularSubtotal = function () {
       return parseFloat(this.precioUnitario) * this.cantidad; }] *)
Definition calcularSubtotal (this : t) : res Z :=
  match global_fn "parseFloat" with
  | None => Throw (ReferenceError "parseFloat")
  | Some f => Ok (f this.(precioUnitario) * this.(cantidad))
  end.

(** The methods assigned to [detallePedido.prototype]. *)
Inductive metodo := M_calcularSubtotal.

Definition prototipo (nombre : string) : option metodo :=
  if string_dec nombre "calcularSubtotal" then Some M_calcularSubtotal else None.

(** [detalle.nombre()] on an order line instance. *)
Definition invocar (this : t) (nombre : string) : res Z :=
  match prototipo nombre with
  | None => Throw (TypeError nombre)
  | Some M_calcularSubtotal => calcularSubtotal this
  end.

(** The loop [for (const detalle of detalles) total += parseFloat(detalle.Subtotal());]. *)
Fixpoint sumar (detalles : list t) (total : Z) : res Z :=
  match detalles with
  | [] => Ok total
  | detalle :: rest =>
      match invocar detalle "Subtotal" with
      | Throw e => Throw e
      | Ok s =>
          match global_fn "parseFloat" with
          | None => Throw (ReferenceError "parseFloat")
          | Some f => sumar rest (total + f s)
          end
      end
  end.

(** [detallePedido.calcularTotalPedido(pedidoId)]:
    [this.findAll({ where: { pedidoId } })], then the loop from [total = 0]. *)
Definition calcularTotalPedido (pedidoId : Z) (db : list t) : res Z :=
  sumar (filter (fun d => d.(DetallePedido.pedidoId) =? pedidoId) db) 0.

End DetallePedido.

(** ** Order model (pedido, src/backend/models/pedido.js lines 325-664) *)

Module Pedido.

Inductive estado := pendiente | pagado | enviado | entregado | cancelado.

Definition nombre_estado (e : estado) : string :=
  match e with
  | pendiente => "pendiente" | pagado => "pagado" | enviado => "enviado"
  | entregado => "entregado" | cancelado => "cancelado"
  end.

(** [const estadosValidos = ["pendiente", "pagado", "enviado", "entregado",
    "cancelado"]], each with the ENUM value it stands for. *)
Definition estadosValidos : list (string * estado) :=
  [("pendiente", pendiente); ("pagado", pagado); ("enviado", enviado);
   ("entregado", entregado); ("cancelado", cancelado)].

Fixpoint buscar_estado (s : string) (l : list (string * estado)) : option estado :=
  match l with
  | [] => None
  | (n, e) :: rest => if String.eqb n s then Some e else buscar_estado s rest
  end.

Record t := mk {
  id : Z;
  usuarioId : Z;
  total : Z;
  estado_de : estado;
  direccionEnvio : string;
  telefono : string
}.

Definition set_estado (p : t) (e : estado) : t :=
  mk p.(id) p.(usuarioId) p.(total) e p.(direccionEnvio) p.(telefono).

Definition tabla := list t.

Definition reemplazar (p : t) (db : tabla) : tabla :=
  map (fun q => if q.(id) =? p.(id) then p else q) db.

(** [pedido.prototype.cambiarEstado(nuevoEstado)]:
    {v
    if (!estadosValidos.includes(nuevoEstado)) { throw new Error("Estado no válido"); }
    this.estado = nuevoEstado;
    return await this.save();
    v}
    [save] validates the changed [estado] (an ENUM value, [isIn] passes);
    the [AfterUpdate] entry of the hooks is not a Sequelize hook name. *)
Definition cambiarEstado (this : t) (nuevoEstado : string) (db : tabla)
  : res t * tabla :=
  match buscar_estado nuevoEstado estadosValidos with
  | None => (Throw (Error EstadoNoValido), db)
  | Some e => let this' := set_estado this e in (Ok this', reemplazar this' db)
  end.

(** [return ["pendiente", "pagado"].includes(this.estado);] *)
Definition puedeSerCancelado (this : t) : bool :=
  existsb (String.eqb (nombre_estado this.(estado_de))) ["pendiente"; "pagado"].

End Pedido.

(** ** The database: one list of rows per table *)

Record Store := mkStore {
  categorias : list Categoria.t;
  subcategorias : list Subcategoria.t;
  productos : Producto.tabla;
  pedidos : Pedido.tabla;
  detalles : list DetallePedido.t
}.

Definition con_productos (st : Store) (ps : Producto.tabla) : Store :=
  mkStore st.(categorias) st.(subcategorias) ps st.(pedidos) st.(detalles).

Definition con_subcategorias (st : Store) (ss : list Subcategoria.t) : Store :=
  mkStore st.(categorias) ss st.(productos) st.(pedidos) st.(detalles).

Definition con_categorias (st : Store) (cs : list Categoria.t) : Store :=
  mkStore cs st.(subcategorias) st.(productos) st.(pedidos) st.(detalles).

Definition con_pedidos (st : Store) (os : Pedido.tabla) : Store :=
  mkStore st.(categorias) st.(subcategorias) st.(productos) os st.(detalles).

Definition con_detalles (st : Store) (ds : list DetallePedido.t) : Store :=
  mkStore st.(categorias) st.(subcategorias) st.(productos) st.(pedidos) ds.

Fixpoint buscar_categoria (cs : list Categoria.t) (k : Z) : option Categoria.t :=
  match cs with
  | [] => None
  | c :: rest => if c.(Categoria.id) =? k then Some c else buscar_categoria rest k
  end.

(** ** Subcategory creation ([Subcategoria.create]) *)

(** The [beforeCreate] hook of [Subcategoria]:
    {v
    const categoria = await Categoria.findByPk(subcategoria.categoriaId);
    if (!categoria) { throw new Error("La categoría ... no existe"); }
    if (!categoria.activo) { throw new Error("No se puede crear ... desactivada"); }
    v} *)
Definition subcategoria_beforeCreate (s : Subcategoria.t) (st : Store) : res unit :=
  match buscar_categoria st.(categorias) s.(Subcategoria.categoriaId) with
  | None => Throw (Error CategoriaNoExiste)
  | Some c => if negb c.(Categoria.activo) then Throw (Error CategoriaDesactivada) else Ok tt
  end.

(** The INSERT: [nombre] is a [unique] column (which also makes the
    index on ([nombre], [categoriaId]) unique).  The database compares
    names under the column's collation, here [igual]: config/database.js
    sets none, so the MySQL server's default applies, and MySQL's default
    collations compare case-insensitively. *)
Definition subcategoria_insert (igual : string -> string -> bool) (s : Subcategoria.t) (st : Store)
  : res Store :=
  if existsb (fun x => igual x.(Subcategoria.nombre) s.(Subcategoria.nombre))
             st.(subcategorias)
  then Throw UniqueConstraintError
  else Ok (con_subcategorias st (st.(subcategorias) ++ [s])).

(** [Subcategoria.create(values)]: validation, then [beforeCreate], then the
    INSERT. *)
Definition crearSubcategoria (igual : string -> string -> bool) (s : Subcategoria.t) (st : Store)
  : res Store :=
  if negb (Subcategoria.valido s) then Throw ValidationError
  else match subcategoria_beforeCreate s st with
       | Throw e => Throw e
       | Ok _ => subcategoria_insert igual s st
       end.

(** An example collation: ASCII letters compared without case. *)
Definition minuscula (a : Ascii.ascii) : Ascii.ascii :=
  let n := Ascii.nat_of_ascii a in
  if ((65 <=? n) && (n <=? 90))%nat then Ascii.ascii_of_nat (n + 32) else a.

Fixpoint minusculas (s : string) : string :=
  match s with
  | EmptyString => EmptyString
  | String a r => String (minuscula a) (minusculas r)
  end.

Definition igual_ci (a b : string) : bool := String.eqb (minusculas a) (minusculas b).

(** ** Deactivation cascade of the category and subcategory hooks *)

(** [producto.update({activo: false})] for every row the query
    [Producto.findAll({where: ...})] returns; rows are addressed by their
    primary key, and [Producto] has no update hook. *)
Definition desactivar_productos (donde : Producto.t -> bool) (ps : Producto.tabla)
  : Producto.tabla :=
  map (fun p => if donde p then Producto.set_activo p false else p) ps.

(** [require(ruta)] from src/backend/models.  Node looks for [ruta] and
    [ruta + ".js"] among the files of the directory, named in lower case as
    models/index.js requires them ("./producto.js", ...); on a
    case-sensitive filesystem any other spelling throws an [Error] with
    code MODULE_NOT_FOUND. *)
Definition archivos_models : list string :=
  ["index.js"; "usuario.js"; "categoria.js"; "carrito.js"; "subcategoria.js";
   "producto.js"; "pedido.js"; "detallePedido.js"].

Definition require (ruta : string) : res unit :=
  if existsb (fun f => String.eqb ruta ("./" ++ f) || String.eqb (ruta ++ ".js") ("./" ++ f))
             archivos_models
  then Ok tt else Throw (ModuleNotFound ruta).

(** The [afterUpdate] hook of [Subcategoria]:
    {v
    const Producto = require("./Producto");
    if (subcategoria.changed("activo") && !subcategoria.activo) {
      try {
        const productos = await Producto.findAll({ where: { subcategoriaId: subcategoria.id } });
        for (const producto of productos) await producto.update({ activo: false }, ...);
      } catch (error) { ...; throw error; }
    }
    v}
    The [require] comes first, outside the [try]. *)
Definition subcategoria_afterUpdate (s : Subcategoria.t) (cambiado : bool) (st : Store)
  : res unit * Store :=
  match require "./Producto" with
  | Throw e => (Throw e, st)
  | Ok _ =>
      if cambiado && negb s.(Subcategoria.activo) then
        (Ok tt,
         con_productos st
           (desactivar_productos (fun p => p.(Producto.subcategoriaId) =? s.(Subcategoria.id))
              st.(productos)))
      else (Ok tt, st)
  end.

(** [subcategoria.update({activo: false})] on an instance read before.  When
    the instance held [true], [activo] changes: the row is written, then
    [afterUpdate] runs, and a throw from the hook rejects the [update] with
    the row already written (no transaction is open).  When it held
    [false] nothing changed, and Sequelize issues no UPDATE and runs no
    after-hook. *)
Definition subcategoria_desactivar (s : Subcategoria.t) (st : Store) : res unit * Store :=
  if s.(Subcategoria.activo) then
    let s' := Subcategoria.set_activo s false in
    let st1 := con_subcategorias st
                 (map (fun x => if x.(Subcategoria.id) =? s.(Subcategoria.id) then s' else x)
                      st.(subcategorias)) in
    subcategoria_afterUpdate s' true st1
  else (Ok tt, st).

(** The loop of the [afterUpdate] hook of [Categoria]: for each subcategory,
    deactivate it, then (inside the same loop body) deactivate every product
    with [categoriaId: categoria.id].  Its two [require]s ("./subcategoria",
    "./producto") resolve.  A throw ends the loop; the hook's [catch]
    rethrows it. *)
Fixpoint cascada (cid : Z) (subs : list Subcategoria.t) (st : Store) : res unit * Store :=
  match subs with
  | [] => (Ok tt, st)
  | s :: rest =>
      match subcategoria_desactivar s st with
      | (Throw e, st1) => (Throw e, st1)
      | (Ok _, st1) =>
          let st2 := con_productos st1
                       (desactivar_productos (fun p => p.(Producto.categoriaId) =? cid)
                          st1.(productos)) in
          cascada cid rest st2
      end
  end.

(** The [afterUpdate] hook of [Categoria]:
    {v
    if (categoria.changed("activo") && !categoria.activo) {
      try {
        const Subcategoria = require("./subcategoria");
        const Producto = require("./producto");
        const subcategorias = await Subcategoria.findAll({ where: { categoriaId: categoria.id } });
        for (const subcategoria of subcategorias) { ...update...; productos loop }
      } catch (error) { ...; throw error; }
    }
    v} *)
Definition categoria_afterUpdate (c : Categoria.t) (cambiado : bool) (st : Store)
  : res unit * Store :=
  if cambiado && negb c.(Categoria.activo) then
    cascada c.(Categoria.id)
      (filter (fun s => s.(Subcategoria.categoriaId) =? c.(Categoria.id)) st.(subcategorias))
      st
  else (Ok tt, st).

(** [categoria.update({activo: nuevo})] (or [categoria.activo = nuevo;
    await categoria.save()], as [toggleCategoria] does, without a
    transaction) on a category instance [c]: the row is written, then
    [afterUpdate] runs; if the hook throws, the call rejects and every row
    written so far stays. *)
Definition actualizarActivoCategoria (c : Categoria.t) (nuevo : bool) (st : Store)
  : res unit * Store :=
  let cambiado := negb (Bool.eqb c.(Categoria.activo) nuevo) in
  let c' := Categoria.set_activo c nuevo in
  let st1 := con_categorias st
               (map (fun x => if x.(Categoria.id) =? c.(Categoria.id) then c' else x)
                    st.(categorias)) in
  categoria_afterUpdate c' cambiado st1.

(** ** Order lines from the cart ([detallePedido.crearDesdeCarrito]) *)

Definition siguiente_id (ds : list DetallePedido.t) : Z :=
  1 + fold_right (fun d m => Z.max d.(DetallePedido.id) m) 0 ds.

(** [detallePedido.create({pedidoId, productoId, cantidad, precioUnitario})]:
    the row is built with [subtotal] unset, validated, then [beforeCreate]
    runs, then the INSERT. *)
Definition crearDetalle (pedidoId productoId cantidad precioUnitario : Z) (st : Store)
  : res DetallePedido.t * Store :=
  let d := DetallePedido.mk (siguiente_id st.(detalles)) pedidoId productoId cantidad
             precioUnitario None in
  if negb (DetallePedido.valido d) then (Throw ValidationError, st)
  else
    let d' := DetallePedido.beforeCreate d in
    (Ok d', con_detalles st (st.(detalles) ++ [d'])).

(** {v
    detallePedido.crearDesdeCarrito = async function (pedidoID, itemsCarrito) {
      const detalles = [];
      for (const item of itemsCarrito) {
        const detalle = await detallePedido.create({...});
        detalles.push(detalle);
      }
      return detalles;
    };
    v}
    No transaction: rows created before a failing [create] stay. *)
Fixpoint crearDesdeCarrito (pedidoID : Z) (itemsCarrito : list Carrito.t) (st : Store)
  : res (list DetallePedido.t) * Store :=
  match itemsCarrito with
  | [] => (Ok [], st)
  | item :: rest =>
      match crearDetalle pedidoID item.(Carrito.productoId) item.(Carrito.cantidad)
              item.(Carrito.precioUnitario) st with
      | (Throw e, st1) => (Throw e, st1)
      | (Ok d, st1) =>
          match crearDesdeCarrito pedidoID rest st1 with
          | (Ok ds, st2) => (Ok (d :: ds), st2)
          | (Throw e, st2) => (Throw e, st2)
          end
      end
  end.

(** ** Order cancellation ([pedido.prototype.cancelar]) *)

(** {v
    for (const detalle of detalles) {
      const producto = await Producto.findByPk(detalle.productoId);
      if (producto) { await producto.aumentarStock(detalle.cantidad); ... }
    }
    v} *)
Fixpoint devolverStock (ds : list DetallePedido.t) (ps : Producto.tabla)
  : res unit * Producto.tabla :=
  match ds with
  | [] => (Ok tt, ps)
  | d :: rest =>
      match Producto.findByPk ps d.(DetallePedido.productoId) with
      | None => devolverStock rest ps
      | Some p =>
          match Producto.invocar (Some p) "aumentarStock" [d.(DetallePedido.cantidad)] ps with
          | (Throw e, ps') => (Throw e, ps')
          | (Ok _, ps') => devolverStock rest ps'
          end
      end
  end.

(** {v
    if (!this.puedeSerCancelado()) { throw new Error("No se puede cancelar el pedido"); }
    const detalles = await DetallePedido.findAll({ where: { pedidoId: this.id } });
    ...devolver stock...
    this.estado = "cancelado";
    return await this.save();
    v} *)
Definition cancelar (this : Pedido.t) (st : Store) : res Pedido.t * Store :=
  if negb (Pedido.puedeSerCancelado this) then (Throw (Error NoSePuedeCancelar), st)
  else
    let ds := filter (fun d => d.(DetallePedido.pedidoId) =? this.(Pedido.id)) st.(detalles) in
    match devolverStock ds st.(productos) with
    | (Throw e, ps) => (Throw e, con_productos st ps)
    | (Ok _, ps) =>
        let this' := Pedido.set_estado this Pedido.cancelado in
        (Ok this', con_pedidos (con_productos st ps) (Pedido.reemplazar this' st.(pedidos)))
    end.

(** ** User model (Usuario, src/unnamed/part_002) *)

Module Usuario.

(** The attribute values of a row, as [this.get()] returns them. *)
Inductive valor := VNum (z : Z) | VStr (s : string) | VBool (b : bool) | VNull.

(** A plain JS object: its own properties in insertion order. *)
Definition objeto := list (string * valor).

Definition clave_contrasena : string := "contraseña".

(** [obj[k] = v]: an existing property keeps its place, a new one is
    appended. *)
Fixpoint asignar (k : string) (v : valor) (o : objeto) : objeto :=
  match o with
  | [] => [(k, v)]
  | (k', v') :: rest =>
      if String.eqb k k' then (k, v) :: rest else (k', v') :: asignar k v rest
  end.

(** [delete obj[k]]. *)
Definition borrar (k : string) (o : objeto) : objeto :=
  filter (fun kv => negb (String.eqb (fst kv) k)) o.

Fixpoint obtener (k : string) (o : objeto) : option valor :=
  match o with
  | [] => None
  | (k', v) :: rest => if String.eqb k k' then Some v else obtener k rest
  end.

(** {v
    Usuario.prototype.toJSON = function () {
      const valores = Object.assign({}, this.get());
      delete valores.contraseña;
      return valores;
    };
    v}
    [Object.assign({}, o)] copies the own properties of [o] in order. *)
Definition toJSON (valoresFila : objeto) : objeto :=
  let valores := valoresFila in
  borrar clave_contrasena valores.

End Usuario.

(** * Properties *)

(** ** Concrete rows used by the examples *)

Definition producto_A : Producto.t := Producto.mk 1 "Camiseta" 1500 5 1 1 true.

Definition pedido_pendiente : Pedido.t := Pedido.mk 1 7 3000 Pedido.pendiente "Calle 1" "3001234567".

Definition linea_A : DetallePedido.t := DetallePedido.mk 1 1 1 2 1500 (Some 3000).

Definition store_pedido : Store := mkStore [] [] [producto_A] [pedido_pendiente] [linea_A].

Definition categoria_ropa : Categoria.t := Categoria.mk 1 "Ropa" true.

Definition store_catalogo : Store :=
  mkStore [categoria_ropa] [Subcategoria.mk 1 "Camisas" 1 true] [producto_A] [] [].

(** Values for [carrito.create] with every column of the [define] given. *)
Definition valores_A : Carrito.valores :=
  Carrito.mkValores (Some 7) (Some 3000) None (Some "Calle 1") (Some "3001234567")
    (Some 1) (Some 2) (Some 1500).

(** A product row after a cascade step: unchanged, or deactivated. *)
Definition solo_activo (p p' : Producto.t) : Prop :=
  p' = p \/ p' = Producto.set_activo p false.

(** ** Helper lemmas *)

Lemma borrar_asignar : forall k v o,
  Usuario.borrar k (Usuario.asignar k v o) = Usuario.borrar k o.
Proof.
  intros k v o. induction o as [| [k' v'] rest IH]; simpl.
  - unfold Usuario.borrar; simpl. rewrite String.eqb_refl. reflexivity.
  - destruct (String.eqb k k') eqn:E.
    + apply String.eqb_eq in E. subst k'. unfold Usuario.borrar; simpl.
      rewrite String.eqb_refl. reflexivity.
    + unfold Usuario.borrar in *; simpl. rewrite IH.
      rewrite String.eqb_sym, E. reflexivity.
Qed.

Lemma obtener_borrar : forall k o, Usuario.obtener k (Usuario.borrar k o) = None.
Proof.
  intros k o. induction o as [| [k' v'] rest IH]; [reflexivity |].
  unfold Usuario.borrar in *; simpl.
  destruct (String.eqb k' k) eqn:E; simpl.
  - exact IH.
  - rewrite String.eqb_sym, E. exact IH.
Qed.

Lemma buscar_estado_nombre : forall e,
  Pedido.buscar_estado (Pedido.nombre_estado e) Pedido.estadosValidos = Some e.
Proof. destruct e; reflexivity. Qed.

Lemma buscar_estado_fuera : forall s,
  ~ In s (map fst Pedido.estadosValidos) ->
  Pedido.buscar_estado s Pedido.estadosValidos = None.
Proof.
  intros s H. cbn [map fst Pedido.estadosValidos In] in H.
  unfold Pedido.estadosValidos. cbn [Pedido.buscar_estado].
  repeat match goal with
  | |- context [String.eqb ?a s] =>
      let E := fresh "E" in
      destruct (String.eqb a s) eqn:E;
      [apply String.eqb_eq in E; subst; exfalso; apply H; tauto |]
  end.
  reflexivity.
Qed.

(** ** Claims *)

(** C9: [HayStock] called without a quantity compares the stock with the
    default 3, so a product with stock 1 or 2 is reported unavailable. *)
Theorem HayStock_sin_cantidad : forall p : Producto.t,
  Producto.HayStock p None = (3 <=? p.(Producto.stock)) /\
  (Producto.HayStock p None = false <-> p.(Producto.stock) < 3).
Proof.
  intros p. unfold Producto.HayStock. split; [reflexivity |].
  rewrite Z.leb_gt. lia.
Qed.

(** C10: the public view [toJSON] of a user row has no [contraseña]
    property, and two rows that differ only in the value of that property
    give the same view. *)
Theorem toJSON_oculta_contrasena : forall (o : Usuario.objeto) (p1 p2 : Usuario.valor),
  Usuario.obtener Usuario.clave_contrasena (Usuario.toJSON o) = None /\
  Usuario.toJSON (Usuario.asignar Usuario.clave_contrasena p1 o) =
  Usuario.toJSON (Usuario.asignar Usuario.clave_contrasena p2 o).
Proof.
  intros o p1 p2. unfold Usuario.toJSON. split.
  - apply obtener_borrar.
  - rewrite !borrar_asignar. reflexivity.
Qed.

(** C3 (counterexample): [cambiarEstado] with "entregado" on a cancelled
    order succeeds and stores the order as delivered. *)
Lemma cambiarEstado_cancelado_a_entregado :
  let o := Pedido.set_estado pedido_pendiente Pedido.cancelado in
  Pedido.cambiarEstado o "entregado" [o] =
  (Ok (Pedido.set_estado o Pedido.entregado), [Pedido.set_estado o Pedido.entregado]).
Proof. vm_compute. reflexivity. Qed.

(** C3 (amended): [cambiarEstado] has no transition check.  From any
    current status it accepts each of the five status names and stores the
    order with that status; it fails with "Estado no válido", leaving the
    table unchanged, exactly for a name outside the five. *)
Theorem cambiarEstado_sin_maquina_de_estados : forall (o : Pedido.t) (db : Pedido.tabla),
  (forall e : Pedido.estado,
     Pedido.cambiarEstado o (Pedido.nombre_estado e) db =
     (Ok (Pedido.set_estado o e), Pedido.reemplazar (Pedido.set_estado o e) db)) /\
  (forall s : string, ~ In s (map fst Pedido.estadosValidos) ->
     Pedido.cambiarEstado o s db = (Throw (Error EstadoNoValido), db)).
Proof.
  intros o db. split.
  - intros e. unfold Pedido.cambiarEstado. rewrite buscar_estado_nombre. reflexivity.
  - intros s Hs. unfold Pedido.cambiarEstado. rewrite (buscar_estado_fuera s Hs).
    reflexivity.
Qed.

Lemma cambiarEstado_sin_maquina_de_estados_witness :
  ~ In "enviadoo" (map fst Pedido.estadosValidos) /\
  Pedido.cambiarEstado pedido_pendiente "enviadoo" [pedido_pendiente] =
  (Throw (Error EstadoNoValido), [pedido_pendiente]).
Proof.
  assert (H : ~ In "enviadoo" (map fst Pedido.estadosValidos))
    by (simpl; intuition discriminate).
  split; [exact H |].
  apply (proj2 (cambiarEstado_sin_maquina_de_estados pedido_pendiente [pedido_pendiente])).
  exact H.
Defined.

(** C7 (counterexample): creating a subcategory whose name is one
    character long under a category that does not exist fails with a
    validation error, not with the category-not-found error (validation
    runs before the hook and the INSERT, so the collation plays no part). *)
Lemma crearSubcategoria_nombre_corto_sin_categoria :
  crearSubcategoria igual_ci (Subcategoria.mk 1 "A" 99 true) (mkStore [] [] [] [] []) =
  Throw ValidationError.
Proof. reflexivity. Qed.

(** C7 (amended): for a subcategory that passes field validation, creation
    fails with the category-not-found error when its category does not
    exist and with the inactive-category error when the category exists but
    is inactive; and whatever the fields and the collation, a subcategory is
    created only when its category exists and is active. *)
Theorem crearSubcategoria_categoria_padre :
  forall (igual : string -> string -> bool) (s : Subcategoria.t) (st : Store),
  (forall st', crearSubcategoria igual s st = Ok st' ->
     exists c, buscar_categoria st.(categorias) s.(Subcategoria.categoriaId) = Some c /\
               c.(Categoria.activo) = true) /\
  (Subcategoria.valido s = true ->
     (buscar_categoria st.(categorias) s.(Subcategoria.categoriaId) = None ->
        crearSubcategoria igual s st = Throw (Error CategoriaNoExiste)) /\
     (forall c, buscar_categoria st.(categorias) s.(Subcategoria.categoriaId) = Some c ->
        c.(Categoria.activo) = false ->
        crearSubcategoria igual s st = Throw (Error CategoriaDesactivada))).
Proof.
  intros igual s st. unfold crearSubcategoria, subcategoria_beforeCreate. split.
  - intros st' H.
    destruct (Subcategoria.valido s); simpl in H; [| discriminate].
    destruct (buscar_categoria _ _) as [c |]; [| discriminate].
    exists c. split; [reflexivity |].
    destruct (Categoria.activo c); [reflexivity | discriminate].
  - intros Hv. rewrite Hv. simpl. split.
    + intros Hn. rewrite Hn. reflexivity.
    + intros c Hc Ha. rewrite Hc, Ha. reflexivity.
Qed.

Lemma crearSubcategoria_categoria_padre_witness :
  let cat := Categoria.mk 3 "Ropa" false in
  let s := Subcategoria.mk 1 "Camisas" 3 true in
  let st := mkStore [cat] [] [] [] [] in
  Subcategoria.valido s = true /\
  buscar_categoria st.(categorias) s.(Subcategoria.categoriaId) = Some cat /\
  crearSubcategoria igual_ci s st = Throw (Error CategoriaDesactivada).
Proof.
  intros cat s st.
  assert (Hv : Subcategoria.valido s = true) by reflexivity.
  assert (Hc : buscar_categoria st.(categorias) s.(Subcategoria.categoriaId) = Some cat)
    by reflexivity.
  split; [exact Hv | split; [exact Hc |]].
  exact (proj2 (proj2 (crearSubcategoria_categoria_padre igual_ci s st) Hv) cat Hc eq_refl).
Defined.

(** C1 (code_bug): [reducirStock] with a quantity the stock covers (2 out
    of 5) throws the insufficient-stock error and leaves the stock at 5,
    because its guard [if (this.HayStock(cantidad))] is inverted. *)
Lemma reducirStock_rechaza_con_stock : forall db,
  Producto.reducirStock producto_A 2 db = (Throw (Error StockInsuficiente), producto_A, db).
Proof. intros db. reflexivity. Qed.

(** C6 (code_bug): on a user cart with one row [calcularTotalCarrito]
    throws a [ReferenceError] from [calcularSubtotal] (which calls
    [parseFloa]) instead of returning 1500 * 2. *)
Lemma calcularTotalCarrito_una_fila :
  Carrito.calcularTotalCarrito 7 [Carrito.mk 1 7 1 2 1500] = Throw (ReferenceError "parseFloa").
Proof. vm_compute. reflexivity. Qed.

(** C8 (code_bug): [actualizarCantidad] from 1 to 2 on a cart row whose
    product has stock 5 throws a [TypeError] ([prducto.hayStock] is
    undefined, the method is [HayStock]) and leaves the cart unchanged. *)
Lemma actualizarCantidad_hayStock_indefinido :
  let item := Carrito.mk 1 7 1 1 1000 in
  Carrito.actualizarCantidad item 2 [producto_A] [item] =
  (Throw (TypeError "hayStock"), [item]).
Proof. vm_compute. reflexivity. Qed.

(** C4 (code_bug): cancelling a pending order with one line of an existing
    product throws a [TypeError] ([producto.aumentarStock] is not defined on
    the product model); the product's stock is not restored and the order
    stays pending. *)
Lemma cancelar_pendiente_aumentarStock_indefinido :
  cancelar pedido_pendiente store_pedido = (Throw (TypeError "aumentarStock"), store_pedido).
Proof. vm_compute. reflexivity. Qed.

(** ** Order lines: every [create] fails its validation *)

Lemma crearDetalle_falla : forall pid prod cant precio st,
  crearDetalle pid prod cant precio st = (Throw ValidationError, st).
Proof.
  intros. unfold crearDetalle, DetallePedido.valido. simpl.
  rewrite andb_false_r. reflexivity.
Qed.

Lemma crearDesdeCarrito_no_vacio : forall pid it rest st,
  crearDesdeCarrito pid (it :: rest) st = (Throw ValidationError, st).
Proof. intros. simpl. rewrite crearDetalle_falla. reflexivity. Qed.

(** C2 (code_bug): checking out a one-item cart whose quantity the stock
    covers (2 units of product 1, which has stock 5) fails: the first
    [detallePedido.create] throws a validation error, because [subtotal] is
    still null when its [allowNull: false] check runs and [beforeCreate]
    would set it only afterwards.  No order line is written and the stock
    stays 5, where a successful checkout should leave it at 3;
    [crearDesdeCarrito] never reads nor lowers any stock. *)
Lemma crearDesdeCarrito_stock_suficiente_falla :
  let item := Carrito.mk 1 7 1 2 1500 in
  Producto.findByPk store_pedido.(productos) item.(Carrito.productoId) = Some producto_A /\
  item.(Carrito.cantidad) <= producto_A.(Producto.stock) /\
  crearDesdeCarrito 1 [item] store_pedido = (Throw ValidationError, store_pedido).
Proof.
  intros item. split; [reflexivity | split].
  - subst item. simpl. lia.
  - apply crearDesdeCarrito_no_vacio.
Qed.

(** ** The deactivation cascade *)

Lemma require_Producto : require "./Producto" = Throw (ModuleNotFound "./Producto").
Proof. reflexivity. Qed.

Lemma subcategoria_desactivar_eq : forall s st,
  subcategoria_desactivar s st =
  if s.(Subcategoria.activo)
  then (Throw (ModuleNotFound "./Producto"),
        con_subcategorias st
          (map (fun x => if x.(Subcategoria.id) =? s.(Subcategoria.id)
                         then Subcategoria.set_activo s false else x) st.(subcategorias)))
  else (Ok tt, st).
Proof.
  intros s st. unfold subcategoria_desactivar, subcategoria_afterUpdate.
  rewrite require_Producto. destruct s.(Subcategoria.activo); reflexivity.
Qed.

Lemma subcategoria_desactivar_subs : forall s st,
  (snd (subcategoria_desactivar s st)).(subcategorias) =
  if s.(Subcategoria.activo)
  then map (fun x => if x.(Subcategoria.id) =? s.(Subcategoria.id)
                     then Subcategoria.set_activo s false else x) st.(subcategorias)
  else st.(subcategorias).
Proof.
  intros s st. rewrite subcategoria_desactivar_eq. destruct s.(Subcategoria.activo); reflexivity.
Qed.

Lemma solo_activo_trans : forall a b c, solo_activo a b -> solo_activo b c -> solo_activo a c.
Proof.
  unfold solo_activo. intros a b c [-> | ->] [-> | ->]; auto.
Qed.

Lemma Forall2_solo_activo_refl : forall ps, Forall2 solo_activo ps ps.
Proof. induction ps; constructor; [left; reflexivity | assumption]. Qed.

Lemma Forall2_solo_activo_trans : forall a b c,
  Forall2 solo_activo a b -> Forall2 solo_activo b c -> Forall2 solo_activo a c.
Proof.
  intros a b c Hab. revert c.
  induction Hab as [| x y a' b' Hxy _ IH]; intros c Hbc; inversion Hbc; subst.
  - constructor.
  - constructor; [eapply solo_activo_trans; eassumption | apply IH; assumption].
Qed.

Lemma desactivar_productos_solo_activo : forall d ps,
  Forall2 solo_activo ps (desactivar_productos d ps).
Proof.
  intros d ps. induction ps as [| p ps IH]; simpl; constructor; [| exact IH].
  unfold solo_activo. destruct (d p); auto.
Qed.

Lemma cascada_productos : forall cid subs st,
  Forall2 solo_activo st.(productos) (snd (cascada cid subs st)).(productos).
Proof.
  intros cid subs. induction subs as [| s rest IH]; intros st;
    [apply Forall2_solo_activo_refl |].
  cbn [cascada]. rewrite subcategoria_desactivar_eq.
  destruct s.(Subcategoria.activo); [apply Forall2_solo_activo_refl |].
  eapply Forall2_solo_activo_trans; [| exact (IH _)].
  apply desactivar_productos_solo_activo.
Qed.

(** C5 (code_bug): deactivating the active category 1, which has the
    active subcategory 1 and the active product 1, throws MODULE_NOT_FOUND
    for "./Producto" from the subcategory's [afterUpdate] hook: the
    category and subcategory rows are written inactive, but product 1
    stays active. *)
Lemma actualizarActivoCategoria_require_Producto :
  actualizarActivoCategoria categoria_ropa false store_catalogo =
  (Throw (ModuleNotFound "./Producto"),
   mkStore [Categoria.set_activo categoria_ropa false] [Subcategoria.mk 1 "Camisas" 1 false]
           [producto_A] [] []) /\
  producto_A.(Producto.activo) = true.
Proof. split; [vm_compute | ]; reflexivity. Qed.

(** * Further properties of the model code *)

(** ** Helper lemmas *)

Lemma filter_vacio : forall (A : Type) (f : A -> bool) (l : list A),
  (forall x, In x l -> f x = false) -> filter f l = [].
Proof.
  intros A f l H. induction l as [| a l IH]; [reflexivity |]. simpl.
  rewrite (H a (or_introl eq_refl)). apply IH. intros x Hx. apply H. right. exact Hx.
Qed.

Lemma filter_no_vacio : forall (A : Type) (f : A -> bool) (l : list A) x,
  In x l -> f x = true -> filter f l <> [].
Proof.
  intros A f l x Hin Hf E. assert (H : In x (filter f l)) by (apply filter_In; auto).
  rewrite E in H. destruct H.
Qed.

Lemma length_filter_particion : forall (A : Type) (f g : A -> bool) (l : list A),
  List.length (filter f l) =
  (List.length (filter (fun x => f x && g x) l) +
   List.length (filter (fun x => f x && negb (g x)) l))%nat.
Proof.
  intros A f g l. induction l as [| a l IH]; [reflexivity |]. simpl.
  destruct (f a), (g a); simpl; rewrite IH; lia.
Qed.

Lemma length_filter_map : forall (A : Type) (f : A -> bool) (h : A -> A) (l : list A),
  (forall x, In x l -> f (h x) = f x) ->
  List.length (filter f (map h l)) = List.length (filter f l).
Proof.
  intros A f h l H. induction l as [| a l IH]; [reflexivity |]. simpl.
  rewrite (H a (or_introl eq_refl)).
  assert (IH' : List.length (filter f (map h l)) = List.length (filter f l))
    by (apply IH; intros x Hx; apply H; right; exact Hx).
  destruct (f a); simpl; rewrite IH'; reflexivity.
Qed.

Lemma ForallOrdPairs_snoc : forall (A : Type) (R : A -> A -> Prop) (l : list A) a,
  ForallOrdPairs R l -> Forall (fun x => R x a) l -> ForallOrdPairs R (l ++ [a]).
Proof.
  intros A R l a H. induction H as [| x l Hx Hl IH]; intros Ha; simpl.
  - constructor; constructor.
  - inversion Ha as [| x' l' Hxa Hla]; subst. constructor.
    + apply Forall_app. split; [exact Hx | constructor; [exact Hxa | constructor]].
    + apply IH. exact Hla.
Qed.

Lemma acumular_no_vacio : forall (c : Carrito.t) rest total,
  Carrito.acumular (c :: rest) total = Throw (ReferenceError "parseFloa").
Proof. intros. reflexivity. Qed.

Lemma sumar_no_vacio : forall (d : DetallePedido.t) rest total,
  DetallePedido.sumar (d :: rest) total = Throw (TypeError "Subtotal").
Proof. intros. reflexivity. Qed.

(** [devolverStock] leaves the product table as it is: it throws at the
    first line whose product exists. *)
Lemma devolverStock_eq : forall ds ps,
  devolverStock ds ps =
  (if existsb (fun d => match Producto.findByPk ps d.(DetallePedido.productoId) with
                        | Some _ => true | None => false end) ds
   then Throw (TypeError "aumentarStock") else Ok tt, ps).
Proof.
  intros ds ps. induction ds as [| d rest IH]; [reflexivity |]. simpl.
  destruct (Producto.findByPk ps d.(DetallePedido.productoId)) as [p |]; simpl.
  - reflexivity.
  - exact IH.
Qed.

Lemma store_eta : forall st,
  mkStore st.(categorias) st.(subcategorias) st.(productos) st.(pedidos) st.(detalles) = st.
Proof. intros []. reflexivity. Qed.

Lemma filter_filter_otro : forall (u v : Z) (db : Carrito.tabla), v <> u ->
  filter (fun c => c.(Carrito.usuarioId) =? v)
    (filter (fun c => negb (c.(Carrito.usuarioId) =? u)) db) =
  filter (fun c => c.(Carrito.usuarioId) =? v) db.
Proof.
  intros u v db Hne. induction db as [| c db IH]; [reflexivity |]. simpl.
  destruct (Z.eqb_spec c.(Carrito.usuarioId) u) as [Hu | Hu]; simpl.
  - rewrite IH. replace (c.(Carrito.usuarioId) =? v) with false; [reflexivity |].
    symmetry. apply Z.eqb_neq. congruence.
  - destruct (c.(Carrito.usuarioId) =? v); rewrite IH; reflexivity.
Qed.

Lemma cascada_otras_tablas : forall cid subs st,
  (snd (cascada cid subs st)).(categorias) = st.(categorias) /\
  (snd (cascada cid subs st)).(pedidos) = st.(pedidos) /\
  (snd (cascada cid subs st)).(detalles) = st.(detalles).
Proof.
  intros cid subs. induction subs as [| s rest IH]; intros st; [auto |].
  cbn [cascada]. rewrite subcategoria_desactivar_eq.
  destruct s.(Subcategoria.activo); [auto | exact (IH _)].
Qed.

(** ** Products *)

(** X1: [reducirStock] never succeeds and never writes the table: a
    quantity the stock covers hits the inverted guard, and a larger one
    makes the new stock negative, which [save] rejects. *)
Theorem reducirStock_nunca_escribe : forall (p : Producto.t) (c : Z) (db : Producto.tabla),
  (c <= p.(Producto.stock) ->
     Producto.reducirStock p c db = (Throw (Error StockInsuficiente), p, db)) /\
  (p.(Producto.stock) < c ->
     Producto.reducirStock p c db =
     (Throw ValidationError, Producto.set_stock p (p.(Producto.stock) - c), db)).
Proof.
  intros p c db. unfold Producto.reducirStock, Producto.HayStock. split; intros H.
  - rewrite (proj2 (Z.leb_le _ _) H). reflexivity.
  - rewrite (proj2 (Z.leb_gt _ _) H). unfold Producto.save, Producto.stock_valido.
    destruct p as [i n pr s ci si a]. cbn in *.
    replace (0 <=? s - c) with false by (symmetry; apply Z.leb_gt; lia).
    reflexivity.
Qed.

Lemma reducirStock_nunca_escribe_witness :
  2 <= producto_A.(Producto.stock) /\ producto_A.(Producto.stock) < 9 /\
  Producto.reducirStock producto_A 2 [producto_A] =
    (Throw (Error StockInsuficiente), producto_A, [producto_A]) /\
  Producto.reducirStock producto_A 9 [producto_A] =
    (Throw ValidationError, Producto.set_stock producto_A (producto_A.(Producto.stock) - 9),
     [producto_A]).
Proof.
  assert (H1 : 2 <= producto_A.(Producto.stock)) by (simpl; lia).
  assert (H2 : producto_A.(Producto.stock) < 9) by (simpl; lia).
  split; [exact H1 | split; [exact H2 | split]].
  - exact (proj1 (reducirStock_nunca_escribe producto_A 2 [producto_A]) H1).
  - exact (proj2 (reducirStock_nunca_escribe producto_A 9 [producto_A]) H2).
Defined.

(** X2: [obtenerUrlImagen] returns [null] for a product that has an image;
    the URL it returns otherwise ends in "/uploads/null" (no image) or
    "/uploads/" (empty image name), never in an image name. *)
Theorem obtenerUrlImagen_invertido : forall imagen FRONTEND_URL : option string,
  (forall s, imagen = Some s -> s <> "" -> Producto.obtenerUrlImagen imagen FRONTEND_URL = None) /\
  (forall url, Producto.obtenerUrlImagen imagen FRONTEND_URL = Some url ->
     exists base, (imagen = None /\ url = base ++ "/uploads/null") \/
                  (imagen = Some "" /\ url = base ++ "/uploads/")).
Proof.
  intros imagen env. unfold Producto.obtenerUrlImagen. split.
  - intros s -> Hs. destruct (String.eqb_spec s "") as [E | _]; [contradiction | reflexivity].
  - intros url H. destruct imagen as [s |].
    + destruct (String.eqb_spec s "") as [-> | _]; simpl in H; [| discriminate].
      injection H as <-. eexists. right. split; reflexivity.
    + simpl in H. injection H as <-. eexists. left. split; reflexivity.
Qed.

Lemma obtenerUrlImagen_invertido_witness :
  Some "camiseta.jpg" = Some "camiseta.jpg" /\ "camiseta.jpg" <> "" /\
  Producto.obtenerUrlImagen (Some "camiseta.jpg") None = None /\
  Producto.obtenerUrlImagen None None = Some "http://localhost:5000/uploads/null" /\
  exists base, (@None string = None /\ "http://localhost:5000/uploads/null" = base ++ "/uploads/null") \/
               (@None string = Some "" /\ "http://localhost:5000/uploads/null" = base ++ "/uploads/").
Proof.
  assert (H1 : Some "camiseta.jpg" = Some "camiseta.jpg") by reflexivity.
  assert (H2 : "camiseta.jpg" <> "") by discriminate.
  assert (H3 : Producto.obtenerUrlImagen None None = Some "http://localhost:5000/uploads/null")
    by reflexivity.
  split; [exact H1 | split; [exact H2 | split; [| split; [exact H3 |]]]].
  - exact (proj1 (obtenerUrlImagen_invertido (Some "camiseta.jpg") None) _ H1 H2).
  - exact (proj2 (obtenerUrlImagen_invertido None None) _ H3).
Defined.

(** ** Cart *)

(** X3: [actualizarCantidad] always throws a [TypeError] ([hayStock] is not
    a method of a product, and [null.hayStock] when the product is missing)
    and never writes the cart table, whatever the new quantity. *)
Theorem actualizarCantidad_siempre_TypeError :
  forall (item : Carrito.t) (n : Z) (ps : Producto.tabla) (db : Carrito.tabla),
  Carrito.actualizarCantidad item n ps db = (Throw (TypeError "hayStock"), db).
Proof.
  intros item n ps db. unfold Carrito.actualizarCantidad, Producto.invocar.
  destruct (Producto.findByPk ps item.(Carrito.productoId)); reflexivity.
Qed.

(** X4: [calcularTotalCarrito] returns 0 for a user with no cart row and
    throws a [ReferenceError] ([parseFloa]) for a user with at least one. *)
Theorem calcularTotalCarrito_vacio_o_ReferenceError : forall (u : Z) (db : Carrito.tabla),
  ((forall c, In c db -> c.(Carrito.usuarioId) <> u) -> Carrito.calcularTotalCarrito u db = Ok 0) /\
  ((exists c, In c db /\ c.(Carrito.usuarioId) = u) ->
     Carrito.calcularTotalCarrito u db = Throw (ReferenceError "parseFloa")).
Proof.
  intros u db. unfold Carrito.calcularTotalCarrito. split.
  - intros H. rewrite filter_vacio; [reflexivity |].
    intros c Hc. apply Z.eqb_neq. exact (H c Hc).
  - intros [c [Hc Hu]].
    pose proof (filter_no_vacio _ (fun c => c.(Carrito.usuarioId) =? u) db c Hc
                  (proj2 (Z.eqb_eq _ _) Hu)) as Hne.
    destruct (filter _ db) as [| c' rest]; [contradiction |].
    apply acumular_no_vacio.
Qed.

Lemma calcularTotalCarrito_vacio_o_ReferenceError_witness :
  (forall c, In c [Carrito.mk 1 8 1 2 1500] -> c.(Carrito.usuarioId) <> 7) /\
  Carrito.calcularTotalCarrito 7 [Carrito.mk 1 8 1 2 1500] = Ok 0 /\
  (exists c, In c [Carrito.mk 1 8 1 2 1500] /\ c.(Carrito.usuarioId) = 8) /\
  Carrito.calcularTotalCarrito 8 [Carrito.mk 1 8 1 2 1500] = Throw (ReferenceError "parseFloa").
Proof.
  assert (H1 : forall c, In c [Carrito.mk 1 8 1 2 1500] -> c.(Carrito.usuarioId) <> 7).
  { intros c [<- | []]. simpl. lia. }
  assert (H2 : exists c, In c [Carrito.mk 1 8 1 2 1500] /\ c.(Carrito.usuarioId) = 8).
  { exists (Carrito.mk 1 8 1 2 1500). split; [left |]; reflexivity. }
  split; [exact H1 | split; [| split; [exact H2 |]]].
  - exact (proj1 (calcularTotalCarrito_vacio_o_ReferenceError 7 _) H1).
  - exact (proj2 (calcularTotalCarrito_vacio_o_ReferenceError 8 _) H2).
Defined.

(** X5: [vaciarCarrito u] deletes exactly the rows of user [u]: afterwards
    the user's cart total is 0, the rows of every other user are the same
    rows in the same order, and the count it returns plus the remaining
    rows is the number of rows before. *)
Theorem vaciarCarrito_efecto : forall (u : Z) (db : Carrito.tabla),
  Carrito.calcularTotalCarrito u (snd (Carrito.vaciarCarrito u db)) = Ok 0 /\
  (forall v, v <> u ->
     filter (fun c => c.(Carrito.usuarioId) =? v) (snd (Carrito.vaciarCarrito u db)) =
     filter (fun c => c.(Carrito.usuarioId) =? v) db) /\
  fst (Carrito.vaciarCarrito u db) + Z.of_nat (List.length (snd (Carrito.vaciarCarrito u db))) =
  Z.of_nat (List.length db).
Proof.
  intros u db. unfold Carrito.vaciarCarrito; simpl. split; [| split].
  - apply (proj1 (calcularTotalCarrito_vacio_o_ReferenceError u _)).
    intros c Hc. apply filter_In in Hc as [_ Hc].
    destruct (Z.eqb_spec c.(Carrito.usuarioId) u); [discriminate | assumption].
  - intros v Hv. apply filter_filter_otro. exact Hv.
  - rewrite <- Nat2Z.inj_add. f_equal.
    induction db as [| c db IH]; [reflexivity |]. simpl.
    destruct (c.(Carrito.usuarioId) =? u); simpl; lia.
Qed.

Lemma vaciarCarrito_efecto_witness :
  (8 <> 7) /\
  filter (fun c => c.(Carrito.usuarioId) =? 8)
    (snd (Carrito.vaciarCarrito 7 [Carrito.mk 1 7 1 2 1500; Carrito.mk 2 8 1 1 1500])) =
  filter (fun c => c.(Carrito.usuarioId) =? 8) [Carrito.mk 1 7 1 2 1500; Carrito.mk 2 8 1 1 1500].
Proof.
  assert (H : 8 <> 7) by lia. split; [exact H |].
  exact (proj1 (proj2 (vaciarCarrito_efecto 7 _)) 8 H).
Defined.

(** X6: [carrito.create] never inserts a row.  Values that leave out
    [total], [direccionEnvio] or [telefono] (the columns the cart's
    [define] shares with the order) fail validation, as does any value
    that breaks a check; for valid values the hook finds no product, or an
    inactive one, or, for an existing active product, throws a [TypeError]
    on [producto.hayStock]. *)
Theorem create_carrito_nunca_inserta :
  forall (v : Carrito.valores) (ps : Producto.tabla) (db : Carrito.tabla),
  (forall db', Carrito.create v ps db <> Carrito.Listo db') /\
  (Carrito.valido v = false -> Carrito.create v ps db = Carrito.Falla (Carrito.JsError ValidationError)) /\
  ((v.(Carrito.v_total) = None \/ v.(Carrito.v_direccionEnvio) = None \/
    v.(Carrito.v_telefono) = None) -> Carrito.valido v = false) /\
  (forall k, Carrito.valido v = true -> v.(Carrito.v_productoId) = Some k ->
     (Producto.findByPk ps k = None -> Carrito.create v ps db = Carrito.Falla Carrito.ProductoNoExiste) /\
     (forall p, Producto.findByPk ps k = Some p -> p.(Producto.activo) = true ->
        Carrito.create v ps db = Carrito.Falla (Carrito.JsError (TypeError "hayStock")))).
Proof.
  intros v ps db. split; [| split; [| split]].
  - intros db'. unfold Carrito.create, Carrito.beforeCreate.
    destruct (negb _); [discriminate |].
    destruct (match v.(Carrito.v_productoId) with Some k => _ | None => None end) as [p |];
      [| discriminate].
    destruct (negb p.(Producto.activo)); discriminate.
  - intros H. unfold Carrito.create. rewrite H. reflexivity.
  - intros H. unfold Carrito.valido. destruct v as [u t e d tel k c pr]; simpl in *.
    destruct u, t, d, tel, k, pr; try reflexivity; destruct H as [H | [H | H]]; discriminate.
  - intros k Hv Hk. unfold Carrito.create, Carrito.beforeCreate. rewrite Hv, Hk. simpl. split.
    + intros ->. reflexivity.
    + intros p -> ->. reflexivity.
Qed.

Lemma create_carrito_nunca_inserta_witness :
  Carrito.valido valores_A = true /\ valores_A.(Carrito.v_productoId) = Some 1 /\
  Producto.findByPk [producto_A] 1 = Some producto_A /\ producto_A.(Producto.activo) = true /\
  Carrito.create valores_A [producto_A] [] = Carrito.Falla (Carrito.JsError (TypeError "hayStock")) /\
  let solo_carrito := Carrito.mkValores (Some 7) None None None None (Some 1) (Some 2) (Some 1500) in
  (solo_carrito.(Carrito.v_total) = None \/ solo_carrito.(Carrito.v_direccionEnvio) = None \/
   solo_carrito.(Carrito.v_telefono) = None) /\
  Carrito.valido solo_carrito = false.
Proof.
  assert (H1 : Carrito.valido valores_A = true) by reflexivity.
  assert (H2 : valores_A.(Carrito.v_productoId) = Some 1) by reflexivity.
  assert (H3 : Producto.findByPk [producto_A] 1 = Some producto_A) by reflexivity.
  assert (H4 : producto_A.(Producto.activo) = true) by reflexivity.
  split; [exact H1 | split; [exact H2 | split; [exact H3 | split; [exact H4 | split]]]].
  - exact (proj2 (proj2 (proj2 (proj2 (create_carrito_nunca_inserta valores_A [producto_A] [])))
                  1 H1 H2) producto_A H3 H4).
  - intros solo_carrito.
    assert (H5 : solo_carrito.(Carrito.v_total) = None \/ solo_carrito.(Carrito.v_direccionEnvio) = None \/
                 solo_carrito.(Carrito.v_telefono) = None) by (left; reflexivity).
    split; [exact H5 |].
    exact (proj1 (proj2 (proj2 (create_carrito_nunca_inserta solo_carrito [producto_A] []))) H5).
Defined.

(** ** Order lines *)

(** X7: [calcularTotalPedido] returns 0 for an order without lines and
    throws a [TypeError] ([detalle.Subtotal] is not a method) for an order
    with at least one line. *)
Theorem calcularTotalPedido_Subtotal_indefinido : forall (pid : Z) (db : list DetallePedido.t),
  ((forall d, In d db -> d.(DetallePedido.pedidoId) <> pid) ->
     DetallePedido.calcularTotalPedido pid db = Ok 0) /\
  ((exists d, In d db /\ d.(DetallePedido.pedidoId) = pid) ->
     DetallePedido.calcularTotalPedido pid db = Throw (TypeError "Subtotal")).
Proof.
  intros pid db. unfold DetallePedido.calcularTotalPedido. split.
  - intros H. rewrite filter_vacio; [reflexivity |].
    intros d Hd. apply Z.eqb_neq. exact (H d Hd).
  - intros [d [Hd Hp]].
    pose proof (filter_no_vacio _ (fun d => d.(DetallePedido.pedidoId) =? pid) db d Hd
                  (proj2 (Z.eqb_eq _ _) Hp)) as Hne.
    destruct (filter _ db) as [| d' rest]; [contradiction |].
    apply sumar_no_vacio.
Qed.

Lemma calcularTotalPedido_Subtotal_indefinido_witness :
  (forall d, In d [linea_A] -> d.(DetallePedido.pedidoId) <> 2) /\
  DetallePedido.calcularTotalPedido 2 [linea_A] = Ok 0 /\
  (exists d, In d [linea_A] /\ d.(DetallePedido.pedidoId) = 1) /\
  DetallePedido.calcularTotalPedido 1 [linea_A] = Throw (TypeError "Subtotal").
Proof.
  assert (H1 : forall d, In d [linea_A] -> d.(DetallePedido.pedidoId) <> 2).
  { intros d [<- | []]. simpl. lia. }
  assert (H2 : exists d, In d [linea_A] /\ d.(DetallePedido.pedidoId) = 1).
  { exists linea_A. split; [left |]; reflexivity. }
  split; [exact H1 | split; [| split; [exact H2 |]]].
  - exact (proj1 (calcularTotalPedido_Subtotal_indefinido 2 _) H1).
  - exact (proj2 (calcularTotalPedido_Subtotal_indefinido 1 _) H2).
Defined.

(** X8: [crearDesdeCarrito] never writes: on an empty item list it returns
    no lines, on any other it throws a validation error at the first
    [create]; the store is unchanged in both cases. *)
Theorem crearDesdeCarrito_nunca_escribe : forall pid (items : list Carrito.t) (st : Store),
  crearDesdeCarrito pid items st =
  (match items with [] => Ok [] | _ :: _ => Throw ValidationError end, st).
Proof.
  intros pid [| it rest] st; [reflexivity |]. apply crearDesdeCarrito_no_vacio.
Qed.

(** ** Orders *)

(** X9: [cancelar] never changes a product row.  It refuses an order that is
    shipped, delivered or cancelled; for a pending or paid order it throws
    a [TypeError] ([aumentarStock]) leaving the store unchanged when one of
    the order's lines names an existing product, and otherwise stores the
    order as cancelled. *)
Theorem cancelar_caracterizacion : forall (o : Pedido.t) (st : Store),
  let lineas := filter (fun d => d.(DetallePedido.pedidoId) =? o.(Pedido.id)) st.(detalles) in
  (snd (cancelar o st)).(productos) = st.(productos) /\
  ((o.(Pedido.estado_de) = Pedido.enviado \/ o.(Pedido.estado_de) = Pedido.entregado \/
    o.(Pedido.estado_de) = Pedido.cancelado) ->
     cancelar o st = (Throw (Error NoSePuedeCancelar), st)) /\
  ((o.(Pedido.estado_de) = Pedido.pendiente \/ o.(Pedido.estado_de) = Pedido.pagado) ->
     (exists d, In d lineas /\ Producto.findByPk st.(productos) d.(DetallePedido.productoId) <> None) ->
     cancelar o st = (Throw (TypeError "aumentarStock"), st)) /\
  ((o.(Pedido.estado_de) = Pedido.pendiente \/ o.(Pedido.estado_de) = Pedido.pagado) ->
     (forall d, In d lineas -> Producto.findByPk st.(productos) d.(DetallePedido.productoId) = None) ->
     cancelar o st =
     (Ok (Pedido.set_estado o Pedido.cancelado),
      con_pedidos st (Pedido.reemplazar (Pedido.set_estado o Pedido.cancelado) st.(pedidos)))).
Proof.
  intros o st lineas. unfold cancelar. rewrite devolverStock_eq. fold lineas.
  split; [| split; [| split]].
  - destruct (negb _); [reflexivity |].
    destruct (existsb _ _); reflexivity.
  - intros He. unfold Pedido.puedeSerCancelado.
    destruct He as [-> | [-> | ->]]; reflexivity.
  - intros He [d [Hd Hp]]. unfold Pedido.puedeSerCancelado.
    replace (negb _) with false by (destruct He as [-> | ->]; reflexivity).
    replace (existsb _ lineas) with true.
    + unfold con_productos. rewrite store_eta. reflexivity.
    + symmetry. apply existsb_exists. exists d. split; [exact Hd |].
      destruct (Producto.findByPk _ _); [reflexivity | contradiction].
  - intros He Hn. unfold Pedido.puedeSerCancelado.
    replace (negb _) with false by (destruct He as [-> | ->]; reflexivity).
    replace (existsb _ lineas) with false.
    + unfold con_productos. rewrite store_eta. reflexivity.
    + symmetry. apply Bool.not_true_iff_false. intros Hx.
      apply existsb_exists in Hx as [d [Hd Hp]]. rewrite (Hn d Hd) in Hp. discriminate.
Qed.

Lemma cancelar_caracterizacion_witness :
  let o := Pedido.set_estado pedido_pendiente Pedido.enviado in
  (o.(Pedido.estado_de) = Pedido.enviado \/ o.(Pedido.estado_de) = Pedido.entregado \/
   o.(Pedido.estado_de) = Pedido.cancelado) /\
  cancelar o store_pedido = (Throw (Error NoSePuedeCancelar), store_pedido) /\
  (pedido_pendiente.(Pedido.estado_de) = Pedido.pendiente \/
   pedido_pendiente.(Pedido.estado_de) = Pedido.pagado) /\
  (forall d, In d (filter (fun d => d.(DetallePedido.pedidoId) =? pedido_pendiente.(Pedido.id))
                    (con_productos store_pedido []).(detalles)) ->
     Producto.findByPk (con_productos store_pedido []).(productos) d.(DetallePedido.productoId) = None) /\
  cancelar pedido_pendiente (con_productos store_pedido []) =
  (Ok (Pedido.set_estado pedido_pendiente Pedido.cancelado),
   con_pedidos (con_productos store_pedido [])
     (Pedido.reemplazar (Pedido.set_estado pedido_pendiente Pedido.cancelado) [pedido_pendiente])).
Proof.
  intros o.
  assert (H1 : o.(Pedido.estado_de) = Pedido.enviado \/ o.(Pedido.estado_de) = Pedido.entregado \/
               o.(Pedido.estado_de) = Pedido.cancelado) by (left; reflexivity).
  assert (H2 : pedido_pendiente.(Pedido.estado_de) = Pedido.pendiente \/
               pedido_pendiente.(Pedido.estado_de) = Pedido.pagado) by (left; reflexivity).
  assert (H3 : forall d, In d (filter (fun d => d.(DetallePedido.pedidoId) =? pedido_pendiente.(Pedido.id))
                                (con_productos store_pedido []).(detalles)) ->
     Producto.findByPk (con_productos store_pedido []).(productos) d.(DetallePedido.productoId) = None)
    by (intros; reflexivity).
  split; [exact H1 | split; [| split; [exact H2 | split; [exact H3 |]]]].
  - exact (proj1 (proj2 (cancelar_caracterizacion o store_pedido)) H1).
  - exact (proj2 (proj2 (proj2 (cancelar_caracterizacion pedido_pendiente
                                  (con_productos store_pedido [])))) H2 H3).
Defined.

(** ** Subcategories and categories *)

(** X10: a successful [crearSubcategoria] appends exactly the new row to the
    subcategory table, changes no other table and keeps the names pairwise
    distinct under the column's collation; a valid subcategory of an active
    category whose name equals a stored one under the collation fails with
    the unique-constraint error. *)
Theorem crearSubcategoria_inserta_una :
  forall (igual : string -> string -> bool) (s : Subcategoria.t) (st : Store),
  (forall st', crearSubcategoria igual s st = Ok st' ->
     st' = con_subcategorias st (st.(subcategorias) ++ [s])%list /\
     (ForallOrdPairs (fun x y => igual x.(Subcategoria.nombre) y.(Subcategoria.nombre) = false)
        st.(subcategorias) ->
      ForallOrdPairs (fun x y => igual x.(Subcategoria.nombre) y.(Subcategoria.nombre) = false)
        st'.(subcategorias))) /\
  (Subcategoria.valido s = true ->
   (exists c, buscar_categoria st.(categorias) s.(Subcategoria.categoriaId) = Some c /\
              c.(Categoria.activo) = true) ->
   (exists x, In x st.(subcategorias) /\
              igual x.(Subcategoria.nombre) s.(Subcategoria.nombre) = true) ->
   crearSubcategoria igual s st = Throw UniqueConstraintError).
Proof.
  intros igual s st. unfold crearSubcategoria, subcategoria_beforeCreate, subcategoria_insert. split.
  - intros st' H. destruct (negb _); [discriminate |].
    destruct (buscar_categoria _ _) as [c |]; [| discriminate].
    destruct (negb c.(Categoria.activo)); [discriminate |].
    destruct (existsb _ _) eqn:E; [discriminate |]. injection H as <-.
    split; [reflexivity |]. intros Hu. simpl.
    apply ForallOrdPairs_snoc; [exact Hu |]. apply Forall_forall. intros x Hin.
    destruct (igual x.(Subcategoria.nombre) s.(Subcategoria.nombre)) eqn:Ex; [| reflexivity].
    assert (Hc : existsb (fun x => igual x.(Subcategoria.nombre) s.(Subcategoria.nombre))
                   st.(subcategorias) = true).
    { apply existsb_exists. exists x. split; [exact Hin | exact Ex]. }
    rewrite Hc in E. discriminate.
  - intros Hv [c [Hc Ha]] [x [Hx Hn]]. rewrite Hv, Hc, Ha. simpl.
    replace (existsb _ _) with true; [reflexivity |].
    symmetry. apply existsb_exists. exists x. split; [exact Hx | exact Hn].
Qed.

Lemma crearSubcategoria_inserta_una_witness :
  let s := Subcategoria.mk 2 "camisas" 1 true in
  Subcategoria.valido s = true /\
  (exists c, buscar_categoria store_catalogo.(categorias) s.(Subcategoria.categoriaId) = Some c /\
             c.(Categoria.activo) = true) /\
  (exists x, In x store_catalogo.(subcategorias) /\
             igual_ci x.(Subcategoria.nombre) s.(Subcategoria.nombre) = true) /\
  crearSubcategoria igual_ci s store_catalogo = Throw UniqueConstraintError /\
  let s2 := Subcategoria.mk 2 "Pantalones" 1 true in
  let st2 := con_subcategorias store_catalogo (store_catalogo.(subcategorias) ++ [s2])%list in
  crearSubcategoria igual_ci s2 store_catalogo = Ok st2 /\
  ForallOrdPairs (fun x y => igual_ci x.(Subcategoria.nombre) y.(Subcategoria.nombre) = false)
    st2.(subcategorias).
Proof.
  intros s.
  assert (H1 : Subcategoria.valido s = true) by reflexivity.
  assert (H2 : exists c, buscar_categoria store_catalogo.(categorias) s.(Subcategoria.categoriaId) = Some c /\
                         c.(Categoria.activo) = true)
    by (exists categoria_ropa; split; reflexivity).
  assert (H3 : exists x, In x store_catalogo.(subcategorias) /\
                         igual_ci x.(Subcategoria.nombre) s.(Subcategoria.nombre) = true)
    by (exists (Subcategoria.mk 1 "Camisas" 1 true); split; [left |]; reflexivity).
  split; [exact H1 | split; [exact H2 | split; [exact H3 | split]]].
  - exact (proj2 (crearSubcategoria_inserta_una igual_ci s store_catalogo) H1 H2 H3).
  - intros s2 st2.
    assert (H4 : crearSubcategoria igual_ci s2 store_catalogo = Ok st2) by (vm_compute; reflexivity).
    split; [exact H4 |].
    apply (proj2 (proj1 (crearSubcategoria_inserta_una igual_ci s2 store_catalogo) st2 H4)).
    simpl. constructor; constructor.
Defined.

(** X11: deactivating a subcategory never changes a product.  On an active
    instance the subcategory row is written inactive, then its
    [afterUpdate] hook throws MODULE_NOT_FOUND at [require("./Producto")]
    (the file is producto.js) before it reaches the products; on an
    instance that is already inactive nothing is written. *)
Theorem subcategoria_desactivar_require_Producto : forall (s : Subcategoria.t) (st : Store),
  (snd (subcategoria_desactivar s st)).(productos) = st.(productos) /\
  (s.(Subcategoria.activo) = true ->
     subcategoria_desactivar s st =
     (Throw (ModuleNotFound "./Producto"),
      con_subcategorias st
        (map (fun x => if x.(Subcategoria.id) =? s.(Subcategoria.id)
                       then Subcategoria.set_activo s false else x) st.(subcategorias)))) /\
  (s.(Subcategoria.activo) = false -> subcategoria_desactivar s st = (Ok tt, st)).
Proof.
  intros s st. rewrite subcategoria_desactivar_eq. split; [| split].
  - destruct s.(Subcategoria.activo); reflexivity.
  - intros ->. reflexivity.
  - intros ->. reflexivity.
Qed.

Lemma subcategoria_desactivar_require_Producto_witness :
  let s := Subcategoria.mk 1 "Camisas" 1 true in
  s.(Subcategoria.activo) = true /\
  subcategoria_desactivar s store_catalogo =
  (Throw (ModuleNotFound "./Producto"),
   con_subcategorias store_catalogo
     (map (fun x => if x.(Subcategoria.id) =? s.(Subcategoria.id)
                    then Subcategoria.set_activo s false else x) store_catalogo.(subcategorias))) /\
  (Subcategoria.set_activo s false).(Subcategoria.activo) = false /\
  subcategoria_desactivar (Subcategoria.set_activo s false) store_catalogo = (Ok tt, store_catalogo).
Proof.
  intros s.
  assert (H1 : s.(Subcategoria.activo) = true) by reflexivity.
  assert (H2 : (Subcategoria.set_activo s false).(Subcategoria.activo) = false) by reflexivity.
  split; [exact H1 | split; [| split; [exact H2 |]]].
  - exact (proj1 (proj2 (subcategoria_desactivar_require_Producto s store_catalogo)) H1).
  - exact (proj2 (proj2 (subcategoria_desactivar_require_Producto
                           (Subcategoria.set_activo s false) store_catalogo)) H2).
Defined.

(** X12: [getNumeroSubcategoriasActivas] counts every subcategory of the
    category, active or not: the count is the number of active ones plus
    the number of inactive ones, and deactivating one of them (through an
    instance that agrees with its row on [categoriaId]) leaves it as it was. *)
Theorem getNumeroSubcategoriasActivas_cuenta_inactivas : forall (c : Categoria.t) (st : Store),
  getNumeroSubcategoriasActivas c st.(subcategorias) =
    Z.of_nat (List.length (filter (fun s => (s.(Subcategoria.categoriaId) =? c.(Categoria.id)) &&
                                           s.(Subcategoria.activo)) st.(subcategorias))) +
    Z.of_nat (List.length (filter (fun s => (s.(Subcategoria.categoriaId) =? c.(Categoria.id)) &&
                                           negb s.(Subcategoria.activo)) st.(subcategorias))) /\
  (forall s, (forall x, In x st.(subcategorias) -> x.(Subcategoria.id) = s.(Subcategoria.id) ->
                        x.(Subcategoria.categoriaId) = s.(Subcategoria.categoriaId)) ->
     getNumeroSubcategoriasActivas c (snd (subcategoria_desactivar s st)).(subcategorias) =
     getNumeroSubcategoriasActivas c st.(subcategorias)).
Proof.
  intros c st. unfold getNumeroSubcategoriasActivas. split.
  - rewrite (length_filter_particion _ _ Subcategoria.activo). lia.
  - intros s Hs. rewrite subcategoria_desactivar_subs.
    destruct s.(Subcategoria.activo) eqn:Ea; [| reflexivity]. f_equal.
    apply length_filter_map. intros x Hx.
    destruct (Z.eqb_spec x.(Subcategoria.id) s.(Subcategoria.id)) as [E | _]; [| reflexivity].
    rewrite (Hs x Hx E). destruct s; reflexivity.
Qed.

Lemma getNumeroSubcategoriasActivas_cuenta_inactivas_witness :
  let s := Subcategoria.mk 1 "Camisas" 1 true in
  (forall x, In x store_catalogo.(subcategorias) -> x.(Subcategoria.id) = s.(Subcategoria.id) ->
             x.(Subcategoria.categoriaId) = s.(Subcategoria.categoriaId)) /\
  getNumeroSubcategoriasActivas categoria_ropa (snd (subcategoria_desactivar s store_catalogo)).(subcategorias) =
  getNumeroSubcategoriasActivas categoria_ropa store_catalogo.(subcategorias).
Proof.
  intros s.
  assert (H : forall x, In x store_catalogo.(subcategorias) -> x.(Subcategoria.id) = s.(Subcategoria.id) ->
                        x.(Subcategoria.categoriaId) = s.(Subcategoria.categoriaId)).
  { intros x [<- | []] _. reflexivity. }
  split; [exact H |].
  exact (proj2 (getNumeroSubcategoriasActivas_cuenta_inactivas categoria_ropa store_catalogo) s H).
Defined.

(** X13: changing a category's [activo] flag never touches the orders, the
    order lines or the other categories' rows, and changes products only by
    setting [activo] to false. *)
Theorem actualizarActivoCategoria_marco : forall (c : Categoria.t) (b : bool) (st : Store),
  Forall2 solo_activo st.(productos) (snd (actualizarActivoCategoria c b st)).(productos) /\
  (snd (actualizarActivoCategoria c b st)).(pedidos) = st.(pedidos) /\
  (snd (actualizarActivoCategoria c b st)).(detalles) = st.(detalles) /\
  (snd (actualizarActivoCategoria c b st)).(categorias) =
    map (fun x => if x.(Categoria.id) =? c.(Categoria.id) then Categoria.set_activo c b else x)
        st.(categorias).
Proof.
  intros c b st. unfold actualizarActivoCategoria, categoria_afterUpdate.
  destruct (_ && _).
  - match goal with
    | |- context [cascada ?cid ?subs ?st0] =>
        destruct (cascada_otras_tablas cid subs st0) as [H1 [H2 H3]];
        pose proof (cascada_productos cid subs st0) as H4
    end.
    rewrite H1, H2, H3. split; [exact H4 | auto].
  - split; [apply Forall2_solo_activo_refl | auto].
Qed.

(** ** Users *)

(** X14: [toJSON] keeps every property other than [contraseña] with its
    value, and applying it to its own output changes nothing. *)
Theorem toJSON_conserva_otras : forall o : Usuario.objeto,
  (forall k, k <> Usuario.clave_contrasena ->
     Usuario.obtener k (Usuario.toJSON o) = Usuario.obtener k o) /\
  Usuario.toJSON (Usuario.toJSON o) = Usuario.toJSON o.
Proof.
  intros o. unfold Usuario.toJSON, Usuario.borrar. split.
  - intros k Hk. induction o as [| [k' v] rest IH]; [reflexivity |]. simpl.
    destruct (String.eqb_spec k' Usuario.clave_contrasena) as [-> | Hne]; simpl.
    + rewrite IH. destruct (String.eqb_spec k Usuario.clave_contrasena); [contradiction | reflexivity].
    + rewrite IH. reflexivity.
  - induction o as [| [k' v] rest IH]; [reflexivity |]. simpl.
    destruct (String.eqb k' Usuario.clave_contrasena) eqn:E; simpl; [exact IH |].
    rewrite E. simpl. rewrite IH. reflexivity.
Qed.

Lemma toJSON_conserva_otras_witness :
  let o := [("nombre", Usuario.VStr "Ana"); (Usuario.clave_contrasena, Usuario.VStr "h")] in
  "nombre" <> Usuario.clave_contrasena /\
  Usuario.obtener "nombre" (Usuario.toJSON o) = Usuario.obtener "nombre" o.
Proof.
  intros o. assert (H : "nombre" <> Usuario.clave_contrasena) by discriminate.
  split; [exact H |]. exact (proj1 (toJSON_conserva_otras o) "nombre" H).
Defined.
